(** * kubemark: the stub container manager of the hollow kubelet

    A shallow embedding of [pkg/kubemark/cm/container_manager_stub.go]
    together with the library functions its methods call
    ([strconv.Itoa], [resource.ParseQuantity], [resource.NewQuantity]),
    followed by the properties of the stub and of the admission ledger,
    the heartbeat loop and the status sync loop described in the design
    document. *)

From Stdlib Require Import ZArith QArith Lia Bool List Ascii String.
From Stdlib Require Import Decimal DecimalString DecimalPos DecimalZ.
From stdpp Require Import base gmap strings list fin_maps.

#[local] Open Scope string_scope.
#[local] Open Scope Z_scope.

(** ** Machine integers *)

(** Two's-complement wrap-around of a [bits]-wide signed integer. *)
Definition wrap (bits : Z) (x : Z) : Z :=
  (x + 2 ^ (bits - 1)) mod 2 ^ bits - 2 ^ (bits - 1).

Definition wrap32 : Z -> Z := wrap 32.
Definition wrap64 : Z -> Z := wrap 64.

Definition minInt64 : Z := - 2 ^ 63.
Definition maxInt64 : Z := 2 ^ 63 - 1.

(** [len(s)] of a Go string, as an integer.  Lengths stay far below 2^31,
    so the conversions [int32(len(...))] of the library are the identity
    and are not written out. *)
Definition len (s : string) : Z := Z.of_nat (String.length s).

(** ** Package [strconv] *)

Module strconv.

Inductive NumError : Type := ErrSyntax | ErrRange.

(** [strconv.Itoa]: the decimal rendering of a Go [int]: a minus sign for
    negative numbers, then the digits without leading zeros; zero is
    rendered as the single digit 0. *)
Definition Itoa (i : Z) : string := NilZero.string_of_int (Z.to_int i).

Definition isDigit (c : ascii) : bool :=
  ((48 <=? nat_of_ascii c) && (nat_of_ascii c <=? 57))%nat.

Definition digitVal (c : ascii) : Z := Z.of_nat (nat_of_ascii c) - 48.

(** The accumulation loop of [ParseUint] in base 10: every byte must be a
    decimal digit. *)
Fixpoint digitsValue (s : string) (acc : Z) : option Z :=
  match s with
  | EmptyString => Some acc
  | String c r =>
      if isDigit c then digitsValue r (acc * 10 + digitVal c) else None
  end.

(** [strconv.ParseInt(s, 10, 64)]. *)
Definition ParseInt (s : string) : Z + NumError :=
  match s with
  | EmptyString => inr ErrSyntax
  | String c r =>
      let neg := Ascii.eqb c "-" in
      let s0 := if Ascii.eqb c "+" || neg then r else s in
      match s0 with
      | EmptyString => inr ErrSyntax
      | _ =>
          match digitsValue s0 0 with
          | None => inr ErrSyntax
          | Some un =>
              if negb neg && (2 ^ 63 <=? un) then inr ErrRange
              else if neg && (2 ^ 63 <? un) then inr ErrRange
              else inl (if neg then - un else un)
          end
      end
  end.

End strconv.

(** ** Package [gopkg.in/inf.v0]: arbitrary-precision decimals *)

Module inf.

(** A [Dec] denotes [unscaled * 10 ^ (- scale)]. *)
Record Dec : Type := NewDec { unscaled : Z; scale : Z }.

Definition SetScale (x : Dec) (s : Z) : Dec :=
  {| unscaled := unscaled x; scale := s |}.

Definition Sign (x : Dec) : Z := Z.sgn (unscaled x).

Definition Neg (x : Dec) : Dec :=
  {| unscaled := - unscaled x; scale := scale x |}.

(** [Unscaled] yields the low 64 bits of the unscaled value as an [int64],
    and whether that is the unscaled value itself. *)
Definition Unscaled (x : Dec) : Z * bool :=
  let u := wrap64 (unscaled x) in (u, u =? unscaled x).

(** [Cmp]: -1, 0 or 1, after bringing both operands to the larger scale. *)
Definition Cmp (x y : Dec) : Z :=
  let s := Z.max (scale x) (scale y) in
  match unscaled x * 10 ^ (s - scale x) ?= unscaled y * 10 ^ (s - scale y) with
  | Lt => -1
  | Eq => 0
  | Gt => 1
  end.

(** [Round(x, s, RoundUp)]: [x] at scale [s], rounded away from zero when
    digits are dropped. *)
Definition RoundUp (x : Dec) (s : Z) : Dec :=
  if scale x <=? s
  then {| unscaled := unscaled x * 10 ^ (s - scale x); scale := s |}
  else
    let p := 10 ^ (scale x - s) in
    let q := Z.quot (unscaled x) p in
    {| unscaled := if Z.rem (unscaled x) p =? 0 then q else q + Z.sgn (unscaled x);
       scale := s |}.

(** The reading loop of [scan]: [unscaled] collects the sign and the
    digits, [dp] is the index of the decimal point and [dg] the index of
    the first digit (-1 while there is none).  The loop stops in front of
    the first byte that cannot continue the number. *)
Fixpoint scanLoop (r : string) (unscaled : string) (dp dg : Z)
  : string * Z * Z * string :=
  match r with
  | EmptyString => (unscaled, dp, dg, r)
  | String ch r' =>
      if Ascii.eqb ch "+" || Ascii.eqb ch "-" then
        if (0 <? len unscaled) || (0 <=? dp) then (unscaled, dp, dg, r)
        else scanLoop r' (unscaled ++ String ch "") dp dg
      else if Ascii.eqb ch "." then
        if 0 <=? dp then (unscaled, dp, dg, r)
        else scanLoop r' unscaled (len unscaled) dg
      else if strconv.isDigit ch then
        scanLoop r' (unscaled ++ String ch "") dp
                 (if dg =? -1 then len unscaled else dg)
      else (unscaled, dp, dg, r)
  end.

(** [big.Int.SetString(s, 10)]: an optional sign and at least one digit. *)
Definition bigSetString (s : string) : option Z :=
  match s with
  | EmptyString => None
  | String c r =>
      let neg := Ascii.eqb c "-" in
      let s0 := if Ascii.eqb c "+" || neg then r else s in
      match s0 with
      | EmptyString => None
      | _ =>
          match strconv.digitsValue s0 0 with
          | None => None
          | Some v => Some (if neg then - v else v)
          end
      end
  end.

(** [scan] together with the rest of the input it has not consumed. *)
Definition scan (s : string) : option (Dec * string) :=
  let '(unscaled, dp, dg, rest) := scanLoop s "" (-1) (-1) in
  if dg =? -1 then None
  else
    let sc := if 0 <=? dp then len unscaled - dp else 0 in
    match bigSetString unscaled with
    | None => None
    | Some u => Some ({| unscaled := u; scale := sc |}, rest)
    end.

(** [SetString] succeeds when [scan] consumes the whole string. *)
Definition SetString (s : string) : option Dec :=
  match scan s with
  | Some (z, EmptyString) => Some z
  | _ => None
  end.

(** The rational number a [Dec] denotes. *)
Definition toQ (x : Dec) : Q :=
  if 0 <=? scale x
  then Qmake (unscaled x) (Z.to_pos (10 ^ scale x))
  else inject_Z (unscaled x * 10 ^ (- scale x)).

End inf.

(** ** Package [k8s.io/apimachinery/pkg/api/resource] *)

Module resource.

(** [Format] is a string type in Go; its zero value is the empty string. *)
Definition Format : Type := string.
Definition DecimalExponent : Format := "DecimalExponent".
Definition BinarySI : Format := "BinarySI".
Definition DecimalSI : Format := "DecimalSI".

Inductive Error : Type := ErrFormatWrong | ErrNumeric | ErrSuffix.

Definition Nano : Z := -9.
Definition maxInt64Factors : Z := 18.

(** [int64Amount] denotes [value * 10 ^ scale]. *)
Record int64Amount : Type := { value : Z; scale : Z }.

(** A [Quantity] holds its amount in [i], unless the [inf.Dec] pointer [d]
    is set.  The cached canonical string of the Go struct plays no role in
    the value and is left out. *)
Record Quantity : Type := { i : int64Amount; d : option inf.Dec; Format_ : Format }.

(** The zero value [Quantity{}]. *)
Definition zeroQuantity : Quantity :=
  {| i := {| value := 0; scale := 0 |}; d := None; Format_ := "" |}.

(** [NewQuantity(value, format)]. *)
Definition NewQuantity (v : Z) (format : Format) : Quantity :=
  {| i := {| value := v; scale := 0 |}; d := None; Format_ := format |}.

(** The rational number a quantity denotes. *)
Definition AsQ (q : Quantity) : Q :=
  match d q with
  | Some dec => inf.toQ dec
  | None =>
      if 0 <=? scale (i q)
      then inject_Z (value (i q) * 10 ^ scale (i q))
      else Qmake (value (i q)) (Z.to_pos (10 ^ (- scale (i q))))
  end.

(** *** Suffixes *)

Definition decSuffixes : list (string * (Z * Z)) :=
  [ ("n", (10, -9)); ("u", (10, -6)); ("m", (10, -3)); ("", (10, 0));
    ("k", (10, 3)); ("M", (10, 6)); ("G", (10, 9)); ("T", (10, 12));
    ("P", (10, 15)); ("E", (10, 18)) ].

Definition binSuffixes : list (string * (Z * Z)) :=
  [ ("Ki", (2, 10)); ("Mi", (2, 20)); ("Gi", (2, 30)); ("Ti", (2, 40));
    ("Pi", (2, 50)); ("Ei", (2, 60)) ].

Fixpoint lookupSuffix (tbl : list (string * (Z * Z))) (s : string)
  : option (Z * Z) :=
  match tbl with
  | [] => None
  | (k, be) :: tbl' => if String.eqb k s then Some be else lookupSuffix tbl' s
  end.

(** [quantitySuffixer.interpret]: base, exponent, format and whether the
    suffix is known. *)
Definition interpret (suffix : string) : Z * Z * Format * bool :=
  match lookupSuffix decSuffixes suffix with
  | Some (b, e) => (b, e, DecimalSI, true)
  | None =>
      match lookupSuffix binSuffixes suffix with
      | Some (b, e) => (b, e, BinarySI, true)
      | None =>
          match suffix with
          | String c (String _ _ as rest) =>
              if Ascii.eqb c "E" || Ascii.eqb c "e" then
                match strconv.ParseInt rest with
                | inr _ => (0, 0, DecimalExponent, false)
                | inl parsed => (10, wrap32 parsed, DecimalExponent, true)
                end
              else (0, 0, DecimalExponent, false)
          | _ => (0, 0, DecimalExponent, false)
          end
      end
  end.

(** *** Splitting a quantity string *)

Fixpoint stripZeroes (s : string) : string :=
  match s with
  | String c r => if Ascii.eqb c "0" then stripZeroes r else s
  | EmptyString => s
  end.

(** The longest prefix of decimal digits, and what follows it. *)
Fixpoint spanDigits (s : string) : string * string :=
  match s with
  | String c r =>
      if strconv.isDigit c
      then let (ds, rest) := spanDigits r in (String c ds, rest)
      else ("", s)
  | EmptyString => ("", "")
  end.

Definition isSuffixChar (c : ascii) : bool :=
  existsb (Ascii.eqb c) (list_ascii_of_string "eEinumkKMGTP").

Fixpoint skipSuffixChars (s : string) : string :=
  match s with
  | String c r => if isSuffixChar c then skipSuffixChars r else s
  | EmptyString => s
  end.

(** [str[0:pos]] where [rest] is [str[pos:]]. *)
Definition upTo (str rest : string) : string :=
  substring 0 (String.length str - String.length rest) str.

(** [parseQuantityString]: sign, value string, numerator digits,
    denominator digits, suffix, error. *)
Definition parseQuantityString (str : string)
  : bool * string * string * string * string * option Error :=
  let '(positive, s1) :=
    match str with
    | String c r =>
        if Ascii.eqb c "-" then (false, r)
        else if Ascii.eqb c "+" then (true, r)
        else (true, str)
    | EmptyString => (true, str)
    end in
  match stripZeroes s1 with
  | EmptyString => (positive, "0", "0", "", "", None)
  | String _ _ as s2 =>
      let (num0, s3) := spanDigits s2 in
      match s3 with
      | EmptyString => (positive, str, num0, "", "", None)
      | String c3 r3 =>
          let num := if len num0 =? 0 then "0" else num0 in
          let '(denom, s4, atEnd) :=
            if Ascii.eqb c3 "." then
              let (den, r4) := spanDigits r3 in
              (den, r4, match r4 with EmptyString => true | _ => false end)
            else ("", s3, false) in
          if atEnd then (positive, str, num, denom, "", None)
          else
            let value := upTo str s4 in
            match skipSuffixChars s4 with
            | EmptyString => (positive, value, num, denom, s4, None)
            | String c5 r5 as s5 =>
                let s6 :=
                  if Ascii.eqb c5 "-" || Ascii.eqb c5 "+" then r5 else s5 in
                match snd (spanDigits s6) with
                | EmptyString => (positive, value, num, denom, s4, None)
                | _ => (positive, value, num, denom, "", Some ErrFormatWrong)
                end
            end
      end
  end.

(** [int64Multiply]: the wrapped product and whether it is exact. *)
Definition int64Multiply (a b : Z) : Z * bool :=
  if (a =? 0) || (b =? 0) || (a =? 1) || (b =? 1) then (wrap64 (a * b), true)
  else if (a =? minInt64) || (b =? minInt64) then (0, false)
  else
    let c := wrap64 (a * b) in
    (c, Z.quot c b =? a).

Definition maxAllowed : inf.Dec := inf.NewDec maxInt64 0.

Definition decOne : inf.Dec := inf.NewDec 1 0.
Definition decZero : inf.Dec := inf.NewDec 0 0.

(** The first step of the slow path of [ParseQuantity]: the suffix is
    folded into the decimal. *)
Definition foldSuffix (base exponent : Z) (amount : inf.Dec) : inf.Dec :=
  if base =? 10 then
    inf.SetScale amount (wrap32 (inf.scale amount + wrap32 (- exponent)))
  else if base =? 2 then
    {| inf.unscaled := inf.unscaled amount * 2 ^ exponent;
       inf.scale := inf.scale amount |}
  else amount.

(** The magnitude the slow path works on: the absolute value, rounded up to
    nano precision when it is not zero, and capped for binary quantities. *)
Definition magnitude (format : Format) (folded : inf.Dec) : inf.Dec :=
  let amount := if inf.Sign folded =? -1 then inf.Neg folded else folded in
  let amount :=
    let (v, ok) := inf.Unscaled amount in
    if negb (v =? 0) || negb ok then inf.RoundUp amount (- Nano) else amount in
  if String.eqb format BinarySI && (0 <? inf.Cmp amount maxAllowed)
  then maxAllowed else amount.

(** The amount of the slow path: the magnitude with the sign put back. *)
Definition adjustAmount (base exponent : Z) (format : Format) (amount : inf.Dec)
  : inf.Dec :=
  let folded := foldSuffix base exponent amount in
  let m := magnitude format folded in
  if inf.Sign folded =? -1 then inf.Neg m else m.

(** The format of the slow path: a binary quantity strictly between 0 and 1
    is relabelled as decimal. *)
Definition adjustFormat (base exponent : Z) (format : Format) (amount : inf.Dec)
  : Format :=
  let m := magnitude format (foldSuffix base exponent amount) in
  if String.eqb format BinarySI && (inf.Cmp m decOne <? 0)
     && (0 <? inf.Cmp m decZero)
  then DecimalSI else format.

(** [ParseQuantity]. *)
Definition ParseQuantity (str : string) : Quantity * option Error :=
  if len str =? 0 then (zeroQuantity, Some ErrFormatWrong)
  else if String.eqb str "0" then
    ({| i := {| value := 0; scale := 0 |}; d := None; Format_ := DecimalSI |}, None)
  else
    let '(positive, value, num, denom, suf, err) := parseQuantityString str in
    match err with
    | Some e => (zeroQuantity, Some e)
    | None =>
        let '(base, exponent, format, ok) := interpret suf in
        if negb ok then (zeroQuantity, Some ErrSuffix)
        else
          let '(precision, scale0, mantissa) :=
            if String.eqb format DecimalExponent || String.eqb format DecimalSI
            then (maxInt64Factors - (len num + len denom), exponent, 1)
            else if String.eqb format BinarySI then
              if (0 <=? exponent) && (len denom =? 0)
              then (15 - len num - exponent * 3 / 10 - 1, 0,
                    wrap64 (Z.shiftl 1 exponent))
              else (-1, 0, 1)
            else (0, 0, 1) in
          let fast : option (Quantity * option Error) :=
            if 0 <=? precision then
              let scale1 := wrap32 (scale0 - len denom) in
              if Nano <=? scale1 then
                match strconv.ParseInt (num ++ denom) with
                | inr _ => Some (zeroQuantity, Some ErrNumeric)
                | inl v =>
                    match int64Multiply v mantissa with
                    | (result, true) =>
                        let result :=
                          if positive then result else wrap64 (- result) in
                        Some ({| i := {| value := result; scale := scale1 |};
                                 d := None; Format_ := format |}, None)
                    | (_, false) => None
                    end
                end
              else None
            else None in
          match fast with
          | Some r => r
          | None =>
              match inf.SetString value with
              | None => (zeroQuantity, Some ErrNumeric)
              | Some amount =>
                  ({| i := {| value := 0; scale := 0 |};
                      d := Some (adjustAmount base exponent format amount);
                      Format_ := adjustFormat base exponent format amount |}, None)
              end
          end
    end.

End resource.

(** ** Package [cm]: the stub container manager *)

(** [v1.ResourceList] is [map[v1.ResourceName]resource.Quantity], and
    [v1.ResourceName] is a string type. *)
Abbreviation ResourceList := (gmap string resource.Quantity).

(** [v1.ResourceEphemeralStorage]. *)
Definition ResourceEphemeralStorage : string := "ephemeral-storage".

(** Go's [error] interface: [None] is the nil error. *)
Definition error : Type := string.

Record containerManagerStub : Type := {
  shouldResetExtendedResourceCapacity : bool;
  GpuNum : Z
}.

(** What a method of the stub can read and write: the struct its pointer
    receiver refers to, and the log of [klog] with its verbosity level. *)
Record World : Type := {
  receiver : containerManagerStub;
  klogVerbosity : Z;
  klogOutput : list string
}.

(** State-passing computations over [World]. *)
Definition M (A : Type) : Type := World -> A * World.

Definition ret {A : Type} (a : A) : M A := fun w => (a, w).

Definition bind {A B : Type} (m : M A) (k : A -> M B) : M B :=
  fun w => let (a, w') := m w in k a w'.

Notation "x <- m ;; k" := (bind m (fun x => k))
  (at level 100, m at next level, right associativity).
Notation "m ;;; k" := (bind m (fun _ => k))
  (at level 100, right associativity).

(** Reading a field through the receiver pointer. *)
Definition load {A : Type} (field : containerManagerStub -> A) : M A :=
  fun w => (field (receiver w), w).

(** [klog.V(level).Infof(line)]: the line is written when the configured
    verbosity is at least [level]. *)
Definition klog_V_Infof (level : Z) (line : string) : M unit :=
  fun w =>
    if level <=? klogVerbosity w
    then (tt, {| receiver := receiver w;
                 klogVerbosity := klogVerbosity w;
                 klogOutput := klogOutput w ++ [line] |})
    else (tt, w).

Section Stub.

(** Types of the kubelet and of the API that the stub only passes
    around. *)
Context {Node ActivePodsFunc SourcesReady PodStatusProvider RuntimeService
         Pod Container NodeInfo PodAdmitAttributes
         EnvVar Mount DeviceInfo Annotation : Type}.

(** [kubecontainer.RunContainerOptions]. *)
Record RunContainerOptions : Type := {
  Envs : list EnvVar;
  Mounts : list Mount;
  Devices : list DeviceInfo;
  Annotations : list Annotation;
  PodContainerDir : string;
  ReadOnly : bool;
  Hostname : string;
  EnableHostUserNamespace : bool
}.

(** The composite literal [RunContainerOptions{}]. *)
Definition emptyRunContainerOptions : RunContainerOptions :=
  {| Envs := []; Mounts := []; Devices := []; Annotations := [];
     PodContainerDir := ""; ReadOnly := false; Hostname := "";
     EnableHostUserNamespace := false |}.

Definition Start (_ : option Node) (_ : ActivePodsFunc) (_ : SourcesReady)
    (_ : PodStatusProvider) (_ : RuntimeService) : M (option error) :=
  klog_V_Infof 2 "Starting stub container manager" ;;;
  ret None.

Definition SystemCgroupsLimit : M ResourceList := ret ∅.

Definition UpdateQOSCgroups : M (option error) := ret None.

Definition GetCapacity : M ResourceList :=
  let c : ResourceList :=
    {[ ResourceEphemeralStorage := resource.NewQuantity 0 resource.BinarySI ]} in
  ret c.

Definition GetDevicePluginResourceCapacity
  : M (ResourceList * ResourceList * list string) :=
  n <- load GpuNum ;;
  let (gpuNum, _) := resource.ParseQuantity (strconv.Itoa n) in
  let devicesCapacity : ResourceList := {[ "nvidia.com/gpu" := gpuNum ]} in
  let devicesAllocatable : ResourceList := {[ "nvidia.com/gpu" := gpuNum ]} in
  ret (devicesCapacity, devicesAllocatable, []).

Definition GetResources (pod : option Pod) (container : option Container)
  : M (option RunContainerOptions * option error) :=
  ret (Some emptyRunContainerOptions, None).

Definition UpdatePluginResources (_ : option NodeInfo)
    (_ : option PodAdmitAttributes) : M (option error) :=
  ret None.

Definition GetPodCgroupRoot : M string := ret "".

Definition ShouldResetExtendedResourceCapacity : M bool :=
  load shouldResetExtendedResourceCapacity.

Definition UpdateAllocatedDevices : M unit := ret tt.

End Stub.

(** The constructors return a pointer to a fresh struct. *)
Definition NewStubContainerManager (gpuNum : Z) : containerManagerStub :=
  {| shouldResetExtendedResourceCapacity := false; GpuNum := gpuNum |}.

Definition NewStubContainerManagerWithExtendedResource
    (shouldReset : bool) : containerManagerStub :=
  {| shouldResetExtendedResourceCapacity := shouldReset; GpuNum := 0 |}.

(** A world in which the receiver is [cm]. *)
Definition worldOf (cm : containerManagerStub) (v : Z) (out : list string) : World :=
  {| receiver := cm; klogVerbosity := v; klogOutput := out |}.

(** What a caller of [NewStubContainerManager] gets: the Go function has a
    single result, the manager, and its body neither returns an error nor
    panics. *)
Definition constructStub (gpuNum : Z) : containerManagerStub + error :=
  inl (NewStubContainerManager gpuNum).

(** ** The remaining methods without calls into other packages *)

Section StubCalls.

Context {Node ActivePodsFunc SourcesReady PodStatusProvider RuntimeService
         Pod Container NodeInfo PodAdmitAttributes
         EnvVar Mount DeviceInfo Annotation
         PluginHandler ContainerDevices : Type}.

(** Returns the nil map: [None]. *)
Definition GetNodeAllocatableReservation : M (option ResourceList) := ret None.

(** Returns the nil interface value: [None]. *)
Definition GetPluginRegistrationHandler : M (option PluginHandler) := ret None.

(** Returns the nil slice. *)
Definition GetDevices (_ _ : string) : M (list (option ContainerDevices)) :=
  ret [].

(** Returns the nil slice. *)
Definition GetCPUs (_ _ : string) : M (list Z) := ret [].

(** A call of one of the methods embedded above, with its arguments.  The
    methods that build values of other packages ([GetNodeConfig],
    [GetMountedSubsystems], [GetQOSContainersInfo], [Status],
    [NewPodContainerManager], [InternalContainerLifecycle],
    [GetAllocateResourcesPodAdmitHandler]) are not among them. *)
Inductive Call : Type :=
| CallStart (node : option Node) (activePods : ActivePodsFunc)
    (sourcesReady : SourcesReady) (podStatusProvider : PodStatusProvider)
    (runtimeService : RuntimeService)
| CallSystemCgroupsLimit
| CallUpdateQOSCgroups
| CallGetNodeAllocatableReservation
| CallGetCapacity
| CallGetPluginRegistrationHandler
| CallGetDevicePluginResourceCapacity
| CallGetResources (pod : option Pod) (container : option Container)
| CallUpdatePluginResources (nodeInfo : option NodeInfo)
    (attrs : option PodAdmitAttributes)
| CallGetPodCgroupRoot
| CallGetDevices (podUID containerName : string)
| CallShouldResetExtendedResourceCapacity
| CallUpdateAllocatedDevices
| CallGetCPUs (podUID containerName : string).

(** Runs a computation for its effect on the world. *)
Definition discard {A : Type} (m : M A) : M unit := m ;;; ret tt.

(** The method a call stands for, run on the receiver. *)
Definition perform (c : Call) : M unit :=
  match c with
  | CallStart node activePods sourcesReady podStatusProvider runtimeService =>
      discard (Start node activePods sourcesReady podStatusProvider runtimeService)
  | CallSystemCgroupsLimit => discard SystemCgroupsLimit
  | CallUpdateQOSCgroups => discard UpdateQOSCgroups
  | CallGetNodeAllocatableReservation => discard GetNodeAllocatableReservation
  | CallGetCapacity => discard GetCapacity
  | CallGetPluginRegistrationHandler => discard GetPluginRegistrationHandler
  | CallGetDevicePluginResourceCapacity => discard GetDevicePluginResourceCapacity
  | CallGetResources pod container =>
      discard (GetResources (EnvVar := EnvVar) (Mount := Mount)
                 (DeviceInfo := DeviceInfo) (Annotation := Annotation)
                 pod container)
  | CallUpdatePluginResources nodeInfo attrs =>
      discard (UpdatePluginResources nodeInfo attrs)
  | CallGetPodCgroupRoot => discard GetPodCgroupRoot
  | CallGetDevices podUID containerName => discard (GetDevices podUID containerName)
  | CallShouldResetExtendedResourceCapacity =>
      discard ShouldResetExtendedResourceCapacity
  | CallUpdateAllocatedDevices => UpdateAllocatedDevices
  | CallGetCPUs podUID containerName => discard (GetCPUs podUID containerName)
  end.

(** A sequence of calls on the same receiver, in order. *)
Fixpoint performAll (cs : list Call) : M unit :=
  match cs with
  | [] => ret tt
  | c :: cs' => perform c ;;; performAll cs'
  end.

Definition isStart (c : Call) : bool :=
  match c with
  | CallStart _ _ _ _ _ => true
  | _ => false
  end.

(** The number of [Start] calls in a sequence. *)
Definition starts (cs : list Call) : nat := List.length (List.filter isStart cs).

End StubCalls.

(** The resource names that occur in one of the resource lists the stub
    returns in [w]. *)
Definition reportedNames (w : World) : gset string :=
  let '(devicesCapacity, devicesAllocatable, _) :=
    fst (GetDevicePluginResourceCapacity w) in
  dom (fst (SystemCgroupsLimit w)) ∪ dom (fst (GetCapacity w))
  ∪ dom devicesCapacity ∪ dom devicesAllocatable.

(** ** The admission ledger of the design document *)

Module AdmissionLedger.

(** Modelled from the spec: the resource dimensions the ledger tracks
    (section 3, Admission Record); the repository's sources hold no
    admission ledger. *)
Inductive Dimension : Type := CPU | Memory | GPU.

(** Modelled from the spec: the order in which the dimensions are checked,
    the one in which sections 3 and 4.2 list them. *)
Definition dimensions : list Dimension := [CPU; Memory; GPU].

(** Modelled from the spec: a resource vector (millicores, bytes, devices),
    used for the allocatable part of the Resource Profile, for requests and
    for the result of [Snapshot].  The quantities are counts: a profile with
    a negative quantity is never constructed (section 4.1). *)
Record Resources : Type := { cpuMillis : N; memoryBytes : N; gpuCount : N }.

(** Modelled from the spec: one component of a resource vector. *)
Definition amount (dim : Dimension) (r : Resources) : N :=
  match dim with
  | CPU => cpuMillis r
  | Memory => memoryBytes r
  | GPU => gpuCount r
  end.

(** Modelled from the spec: the Admission Record of section 3. *)
Record AdmissionRecord : Type := {
  workloadID : string;
  requestedCPU : N;
  requestedMemory : N;
  requestedGPU : N;
  admittedAt : N
}.

(** Modelled from the spec: what a record requested in one dimension. *)
Definition requestedOf (dim : Dimension) (r : AdmissionRecord) : N :=
  match dim with
  | CPU => requestedCPU r
  | Memory => requestedMemory r
  | GPU => requestedGPU r
  end.

(** Modelled from the spec: a placement request, the arguments of
    [SubmitPlacement] without the agent (section 6). *)
Record Request : Type := { requestID : string; requestedResources : Resources }.

(** Modelled from the spec: the ledger of one agent: its allocatable
    resources and the live records, in the order of admission (the ledger
    is append/remove only). *)
Record Ledger : Type := { allocatable : Resources; live : list AdmissionRecord }.

(** Modelled from the spec: the ledger of a freshly created agent. *)
Definition New (alloc : Resources) : Ledger :=
  {| allocatable := alloc; live := [] |}.

(** Modelled from the spec: the sum of the requests of the live records in
    one dimension. *)
Definition used (dim : Dimension) (l : Ledger) : N :=
  fold_right (fun r acc => requestedOf dim r + acc)%N 0%N (live l).

(** Modelled from the spec: [Snapshot], the used resources by dimension. *)
Definition Snapshot (l : Ledger) : Resources :=
  {| cpuMillis := used CPU l; memoryBytes := used Memory l; gpuCount := used GPU l |}.

(** Modelled from the spec: whether the remaining headroom of a dimension
    covers a request. *)
Definition hasHeadroom (l : Ledger) (req : Request) (dim : Dimension) : bool :=
  (used dim l + amount dim (requestedResources req) <=? amount dim (allocatable l))%N.

(** Modelled from the spec: the first dimension, in checking order, whose
    headroom does not cover the request. *)
Definition firstExhausted (l : Ledger) (req : Request) : option Dimension :=
  List.find (fun dim => negb (hasHeadroom l req dim)) dimensions.

(** Modelled from the spec: the outcome of [TryAdmit]; [Accepted] stands
    for the outcome the design document calls Admitted, a reserved word
    here; the reason of a rejection names the exhausted dimension. *)
Inductive Decision : Type := Accepted | Rejected (reason : Dimension).

(** Modelled from the spec: the record kept for an admitted request. *)
Definition recordOf (now : N) (req : Request) : AdmissionRecord :=
  {| workloadID := requestID req;
     requestedCPU := cpuMillis (requestedResources req);
     requestedMemory := memoryBytes (requestedResources req);
     requestedGPU := gpuCount (requestedResources req);
     admittedAt := now |}.

(** Modelled from the spec: [TryAdmit] (section 4.2), at time [now]. *)
Definition TryAdmit (now : N) (req : Request) (l : Ledger) : Decision * Ledger :=
  match firstExhausted l req with
  | Some dim => (Rejected dim, l)
  | None =>
      (Accepted,
       {| allocatable := allocatable l; live := live l ++ [recordOf now req] |})
  end.

(** Modelled from the spec: [Release] (section 4.2) removes the records of a
    workload; it has no error result. *)
Definition Release (id : string) (l : Ledger) : Ledger :=
  {| allocatable := allocatable l;
     live := List.filter (fun r => negb (String.eqb (workloadID r) id)) (live l) |}.

(** Modelled from the spec: the operations the placement collaborator can
    submit (section 6). *)
Inductive Op : Type :=
| SubmitPlacement (now : N) (req : Request)
| ReleasePlacement (id : string).

(** Modelled from the spec: the effect of one operation on the ledger. *)
Definition step (l : Ledger) (op : Op) : Ledger :=
  match op with
  | SubmitPlacement now req => snd (TryAdmit now req l)
  | ReleasePlacement id => Release id l
  end.

(** Modelled from the spec: every state the ledger goes through while a
    sequence of operations is applied, the initial one included. *)
Fixpoint states (l : Ledger) (ops : list Op) : list Ledger :=
  l :: match ops with
       | [] => []
       | op :: ops' => states (step l op) ops'
       end.

(** Modelled from the spec: the ledger invariant of section 3. *)
Definition withinAllocatable (l : Ledger) : Prop :=
  forall dim : Dimension, (used dim l <= amount dim (allocatable l))%N.

End AdmissionLedger.

(** ** The heartbeat loop of the design document *)

Module HeartbeatLoop.

(** Modelled from the spec: the settings of the Heartbeat Loop (section
    4.3): the fixed period P and the base and maximum delays of the
    exponential backoff; the repository's sources hold no heartbeat loop.
    Times and durations are counted in clock units. *)
Record Config : Type := { period : N; backoffBase : N; backoffMax : N }.

(** Modelled from the spec: what the loop observes of one renewal attempt
    (section 4.3): how long the request took, whether the lease was
    renewed, and by how much the scheduler delays the start of the attempt
    that follows. *)
Record Attempt : Type := { duration : N; renewed : bool; jitter : N }.

(** Modelled from the spec: the state the loop keeps between attempts: the
    start time of the last attempt and the consecutive-failure counter. *)
Record State : Type := { lastAttemptStart : N; failures : nat }.

(** Modelled from the spec: the loop as it makes its first attempt, at
    time [start]. *)
Definition initial (start : N) : State :=
  {| lastAttemptStart := start; failures := 0 |}.

(** Modelled from the spec: the backoff delay after [k] consecutive
    failures: it doubles from the base delay and is bounded by the maximum
    delay (section 4.3). *)
Definition backoffDelay (cfg : Config) (k : nat) : N :=
  N.min (backoffBase cfg * 2 ^ N.of_nat (Nat.pred k)) (backoffMax cfg).

(** Modelled from the spec: the next tick is the start time of the last
    attempt plus P (section 4.3). *)
Definition nextTick (cfg : Config) (st : State) : N :=
  (lastAttemptStart st + period cfg)%N.

(** Modelled from the spec: the state in which the next attempt starts.
    The loop sleeps until the next tick; after a failure the backoff delay
    must have passed as well; a tick that is already past is not waited
    for (backoff delays, it never advances). *)
Definition next (cfg : Config) (st : State) (a : Attempt) : State :=
  let finished := (lastAttemptStart st + duration a)%N in
  let failures' := if renewed a then 0%nat else S (failures st) in
  let earliest :=
    if renewed a then finished
    else (finished + backoffDelay cfg failures')%N in
  {| lastAttemptStart := (N.max (nextTick cfg st) earliest + jitter a)%N;
     failures := failures' |}.

(** Modelled from the spec: the start times of the first attempt and of the
    attempts that follow the given ones, in order. *)
Fixpoint attemptStarts (cfg : Config) (st : State) (obs : list Attempt) : list N :=
  lastAttemptStart st ::
  match obs with
  | [] => []
  | a :: obs' => attemptStarts cfg (next cfg st a) obs'
  end.




End HeartbeatLoop.

(** ** The status sync loop of the design document *)

Module StatusSyncLoop.

(** Modelled from the spec: the condition values of a Status Snapshot
    (section 3): condition name and state; the repository's sources hold
    no status sync loop. *)
Definition Conditions : Type := list (string * bool).

(** Modelled from the spec: one tick of the minimum update frequency as the
    loop observes it: the time of the tick, the conditions of the
    recomputed snapshot, and whether a publish issued on this tick
    succeeds. *)
Record Tick : Type := {
  tickTime : N;
  conditions : Conditions;
  publishSucceeds : bool
}.

(** Modelled from the spec: what the loop remembers: the conditions of the
    last published snapshot and the time of the last successful publish,
    both absent until the first publish succeeds. *)
Record State : Type := {
  lastPublished : option Conditions;
  lastSuccess : option N
}.

(** Modelled from the spec: the loop right after registration. *)
Definition initial : State := {| lastPublished := None; lastSuccess := None |}.

(** Modelled from the spec: the publish rule of section 4.4, with maximum
    report interval [M]: publish when a condition differs from the last
    published snapshot or when M or more has passed since the last
    successful publish; before the first successful publish, always. *)
Definition shouldPublish (M : N) (st : State) (tk : Tick) : bool :=
  match lastSuccess st, lastPublished st with
  | Some t, Some c =>
      negb (bool_decide (conditions tk = c)) || (M <=? tickTime tk - t)%N
  | _, _ => true
  end.

(** Modelled from the spec: what a tick does. *)
Inductive Event : Type := Skipped | Published | PublishFailed.

(** Modelled from the spec: one tick (section 4.4): a successful publish
    records the snapshot and the time; a failed publish and a skipped tick
    leave the state as it is. *)
Definition onTick (M : N) (st : State) (tk : Tick) : Event * State :=
  if shouldPublish M st tk then
    if publishSucceeds tk
    then (Published,
          {| lastPublished := Some (conditions tk);
             lastSuccess := Some (tickTime tk) |})
    else (PublishFailed, st)
  else (Skipped, st).

(** Modelled from the spec: the events of a run, each with its time. *)
Fixpoint run (M : N) (st : State) (ticks : list Tick) : list (N * Event) :=
  match ticks with
  | [] => []
  | tk :: ticks' =>
      (tickTime tk, fst (onTick M st tk)) :: run M (snd (onTick M st tk)) ticks'
  end.

(** Modelled from the spec: the times of the successful publishes of a
    run. *)
Fixpoint successTimes (trace : list (N * Event)) : list N :=
  match trace with
  | [] => []
  | (t, Published) :: trace' => t :: successTimes trace'
  | _ :: trace' => successTimes trace'
  end.




(** Modelled from the spec: ticks at the given times on which nothing
    changes; [failing] lists the times at which a publish would fail. *)
Definition quietTicks (times failing : list N) : list Tick :=
  map (fun t => {| tickTime := t; conditions := [("Ready", true)];
                   publishSucceeds := negb (bool_decide (t ∈ failing)) |})
      times.

End StatusSyncLoop.

(** ** Auxiliary notions for the proofs *)

(** The digits of a positive number, most significant first. *)
Definition digitsOf (p : positive) : string :=
  NilEmpty.string_of_uint (Pos.to_uint p).

Fixpoint allDigits (s : string) : bool :=
  match s with
  | EmptyString => true
  | String c r => strconv.isDigit c && allDigits r
  end.

(** The first byte of a string is a digit other than 0. *)
Definition startsNonZero (s : string) : bool :=
  match s with
  | String c _ => strconv.isDigit c && negb (Ascii.eqb c "0")
  | EmptyString => false
  end.

(** The quantity [ParseQuantity] builds for a non-zero integer [v] written
    with [digits] decimal digits and no suffix: an [int64Amount] up to 18
    digits, an [inf.Dec] at nano scale beyond. *)
Definition integerQuantity (digits : Z) (v : Z) : resource.Quantity :=
  if 0 <=? resource.maxInt64Factors - digits
  then resource.NewQuantity v resource.DecimalSI
  else {| resource.i := {| resource.value := 0; resource.scale := 0 |};
          resource.d := Some (inf.NewDec (v * 10 ^ 9) 9);
          resource.Format_ := resource.DecimalSI |}.

(** An accessor run in [w] leaves both fields of the manager as they
    were. *)
Definition preservesFields {A : Type} (m : M A) (w : World) : Prop :=
  GpuNum (receiver (snd (m w))) = GpuNum (receiver w)
  /\ shouldResetExtendedResourceCapacity (receiver (snd (m w)))
     = shouldResetExtendedResourceCapacity (receiver w).

(** Two consecutive calls of [m] from [w] return the result of a single
    call, twice, and end in [w]. *)
Definition repeatable {A : Type} (m : M A) (w : World) : Prop :=
  (x <- m ;; y <- m ;; ret (x, y)) w = ((fst (m w), fst (m w)), w).

(** * Properties *)

(** ** Sanity checks of the embedding *)

Example Itoa_twenty : strconv.Itoa 20 = "20".
Proof. reflexivity. Qed.

Example Itoa_minus_seven : strconv.Itoa (-7) = "-7".
Proof. reflexivity. Qed.

Example Itoa_of_zero : strconv.Itoa 0 = "0".
Proof. reflexivity. Qed.

Example ParseInt_minInt64 :
  strconv.ParseInt "-9223372036854775808" = inl minInt64.
Proof. reflexivity. Qed.

Example ParseInt_overflow :
  strconv.ParseInt "9223372036854775808" = inr strconv.ErrRange.
Proof. reflexivity. Qed.

Example SetString_fraction :
  inf.SetString "-12.50" = Some (inf.NewDec (-1250) 2).
Proof. reflexivity. Qed.

Example SetString_junk : inf.SetString "12x" = None.
Proof. reflexivity. Qed.

Example RoundUp_drops : inf.RoundUp (inf.NewDec 1201 3) 1 = inf.NewDec 13 1.
Proof. reflexivity. Qed.

Example ParseQuantity_20 :
  resource.ParseQuantity "20" = (resource.NewQuantity 20 resource.DecimalSI, None).
Proof. reflexivity. Qed.

Example ParseQuantity_negative :
  resource.ParseQuantity "-7" = (resource.NewQuantity (-7) resource.DecimalSI, None).
Proof. reflexivity. Qed.

Example ParseQuantity_Gi :
  resource.ParseQuantity "4Gi" = (resource.NewQuantity (4 * 2 ^ 30) resource.BinarySI, None).
Proof. reflexivity. Qed.

Example ParseQuantity_milli :
  resource.ParseQuantity "100m"
  = ({| resource.i := {| resource.value := 100; resource.scale := -3 |};
        resource.d := None; resource.Format_ := resource.DecimalSI |}, None).
Proof. reflexivity. Qed.

Example ParseQuantity_maxInt :
  resource.ParseQuantity "9223372036854775807"
  = ({| resource.i := {| resource.value := 0; resource.scale := 0 |};
        resource.d := Some (inf.NewDec (9223372036854775807 * 10 ^ 9) 9);
        resource.Format_ := resource.DecimalSI |}, None).
Proof. reflexivity. Qed.

Example ParseQuantity_bad :
  snd (resource.ParseQuantity "1K") = Some resource.ErrSuffix
  /\ snd (resource.ParseQuantity "1x") = Some resource.ErrFormatWrong.
Proof. split; reflexivity. Qed.

Example ParseQuantity_small_binary :
  resource.ParseQuantity "0.0001Ki"
  = ({| resource.i := {| resource.value := 0; resource.scale := 0 |};
        resource.d := Some (inf.NewDec 102400000 9);
        resource.Format_ := resource.DecimalSI |}, None).
Proof. reflexivity. Qed.

Example Unscaled_low_bits :
  inf.Unscaled (inf.NewDec (2 ^ 64 + 5) 0) = (5, false)
  /\ inf.Unscaled (inf.NewDec (-7) 3) = (-7, true).
Proof. split; reflexivity. Qed.

Example GetDevicePluginResourceCapacity_node_gpu_20 :
  fst (GetDevicePluginResourceCapacity (worldOf (NewStubContainerManager 20) 0 []))
  = ({[ "nvidia.com/gpu" := resource.NewQuantity 20 resource.DecimalSI ]},
     {[ "nvidia.com/gpu" := resource.NewQuantity 20 resource.DecimalSI ]},
     []).
Proof. reflexivity. Qed.

Example Start_logs_at_verbosity_2 :
  Start (Node := unit) None tt tt tt tt (worldOf (NewStubContainerManager 0) 2 [])
  = (None, worldOf (NewStubContainerManager 0) 2 ["Starting stub container manager"])
  /\ Start (Node := unit) None tt tt tt tt (worldOf (NewStubContainerManager 0) 1 [])
     = (None, worldOf (NewStubContainerManager 0) 1 []).
Proof. split; reflexivity. Qed.


(** ** Decimal rendering and parsing *)

Lemma allDigits_string_of_uint (d : uint) :
  allDigits (NilEmpty.string_of_uint d) = true.
Proof. induction d; simpl; auto. Qed.

Ltac eval_digitVal :=
  repeat match goal with
    | |- context [strconv.digitVal ?c] =>
        let v := eval vm_compute in (strconv.digitVal c) in
        change (strconv.digitVal c) with v
    end.

Lemma digitsValue_of_uint_acc (d : uint) (acc : positive) :
  strconv.digitsValue (NilEmpty.string_of_uint d) (Z.pos acc)
  = Some (Z.pos (Pos.of_uint_acc d acc)).
Proof.
  revert acc. induction d; intros acc; simpl; try reflexivity;
    rewrite <- IHd; f_equal; eval_digitVal; lia.
Qed.

Lemma digitsValue_of_uint (d : uint) :
  strconv.digitsValue (NilEmpty.string_of_uint d) 0
  = Some (Z.of_N (Pos.of_uint d)).
Proof.
  induction d; simpl; try reflexivity; try exact IHd;
    eval_digitVal; apply digitsValue_of_uint_acc.
Qed.

Lemma digitsValue_digitsOf (p : positive) :
  strconv.digitsValue (digitsOf p) 0 = Some (Z.pos p).
Proof.
  unfold digitsOf. rewrite digitsValue_of_uint.
  rewrite DecimalPos.Unsigned.of_to. reflexivity.
Qed.

Lemma allDigits_digitsOf (p : positive) : allDigits (digitsOf p) = true.
Proof. apply allDigits_string_of_uint. Qed.

Lemma Itoa_pos (p : positive) : strconv.Itoa (Z.pos p) = digitsOf p.
Proof.
  unfold strconv.Itoa, digitsOf. simpl.
  pose proof (DecimalPos.Unsigned.to_uint_nonnil p) as Hnn.
  destruct (Pos.to_uint p); try reflexivity. congruence.
Qed.

Lemma Itoa_neg (p : positive) :
  strconv.Itoa (Z.neg p) = String "-" (digitsOf p).
Proof.
  unfold strconv.Itoa, digitsOf. simpl.
  pose proof (DecimalPos.Unsigned.to_uint_nonnil p) as Hnn.
  destruct (Pos.to_uint p); try reflexivity. congruence.
Qed.

Lemma unorm_D0_inv (x y : uint) : unorm x = D0 y -> y = Nil.
Proof.
  induction x; simpl; intros H; try discriminate; auto.
  injection H as <-. reflexivity.
Qed.

Lemma startsNonZero_digitsOf (p : positive) : startsNonZero (digitsOf p) = true.
Proof.
  unfold digitsOf.
  assert (Hn : unorm (Pos.to_uint p) = Pos.to_uint p).
  { rewrite <- DecimalPos.Unsigned.to_of, DecimalPos.Unsigned.of_to. reflexivity. }
  pose proof (DecimalPos.Unsigned.to_uint_nonzero p) as Hz.
  destruct (Pos.to_uint p) as [|d|d|d|d|d|d|d|d|d|d]; try reflexivity.
  - discriminate Hn.
  - simpl in Hn. apply unorm_D0_inv in Hn. subst d. now elim Hz.
Qed.

Lemma digitVal_range (c : ascii) :
  strconv.isDigit c = true -> 0 <= strconv.digitVal c <= 9.
Proof.
  unfold strconv.isDigit, strconv.digitVal. intros H.
  apply andb_true_iff in H. destruct H as [H1 H2].
  apply Nat.leb_le in H1, H2. lia.
Qed.

(** The value of [n] digits read after [acc]. *)
Lemma digitsValue_bounds (s : string) (acc v : Z) :
  strconv.digitsValue s acc = Some v ->
  acc * 10 ^ len s <= v < (acc + 1) * 10 ^ len s.
Proof.
  revert acc. induction s as [|c r IH]; intros acc; simpl.
  - intros [= <-]. unfold len. simpl. lia.
  - destruct (strconv.isDigit c) eqn:Hc; [|discriminate].
    intros H. apply IH in H. apply digitVal_range in Hc.
    unfold len in *. simpl String.length. rewrite Nat2Z.inj_succ, Z.pow_succ_r by lia.
    assert (0 < 10 ^ Z.of_nat (String.length r)) by (apply Z.pow_pos_nonneg; lia).
    nia.
Qed.

Lemma spanDigits_allDigits (s : string) :
  allDigits s = true -> resource.spanDigits s = (s, "").
Proof.
  induction s as [|c r IH]; simpl; [reflexivity|].
  intros H. apply andb_true_iff in H. destruct H as [Hc Hr].
  rewrite Hc, (IH Hr). reflexivity.
Qed.

Lemma stripZeroes_startsNonZero (s : string) :
  startsNonZero s = true -> resource.stripZeroes s = s.
Proof.
  destruct s as [|c r]; simpl; [discriminate|].
  intros H. apply andb_true_iff in H. destruct H as [_ H].
  apply negb_true_iff in H. rewrite H. reflexivity.
Qed.

Lemma isDigit_not_mark (c : ascii) :
  strconv.isDigit c = true ->
  Ascii.eqb c "-" = false /\ Ascii.eqb c "+" = false /\ Ascii.eqb c "." = false.
Proof.
  destruct c as [[] [] [] [] [] [] [] []]; simpl; intros H;
    try discriminate H; repeat split.
Qed.

Lemma parseQuantityString_digits (s : string) :
  startsNonZero s = true -> allDigits s = true ->
  resource.parseQuantityString s = (true, s, s, "", "", None).
Proof.
  intros Hs Ha. unfold resource.parseQuantityString.
  destruct s as [|c r]; [discriminate|].
  pose proof Hs as Hc. simpl in Hc. apply andb_true_iff in Hc.
  destruct Hc as [Hc _]. apply isDigit_not_mark in Hc.
  destruct Hc as (-> & -> & _).
  rewrite (stripZeroes_startsNonZero _ Hs), (spanDigits_allDigits _ Ha).
  reflexivity.
Qed.

Lemma parseQuantityString_minus_digits (s : string) :
  startsNonZero s = true -> allDigits s = true ->
  resource.parseQuantityString (String "-" s)
  = (false, String "-" s, s, "", "", None).
Proof.
  intros Hs Ha. unfold resource.parseQuantityString.
  change (Ascii.eqb "-" "-") with true. cbv iota.
  rewrite (stripZeroes_startsNonZero _ Hs).
  destruct s as [|c r]; [discriminate|].
  rewrite (spanDigits_allDigits _ Ha). reflexivity.
Qed.

Lemma append_snoc (a : string) (c : ascii) (r : string) :
  ((a ++ String c "") ++ r)%string = (a ++ String c r)%string.
Proof.
  induction a as [|x a IH]; [reflexivity|].
  change (String x ((a ++ String c "") ++ r) = String x (a ++ String c r))%string.
  now rewrite IH.
Qed.

Lemma append_empty_r (a : string) : (a ++ "")%string = a.
Proof.
  induction a as [|x a IH]; [reflexivity|].
  change (String x (a ++ "") = String x a)%string. now rewrite IH.
Qed.

Lemma len_nonneg (s : string) : 0 <= len s.
Proof. unfold len. lia. Qed.

Lemma scanLoop_allDigits (s : string) :
  allDigits s = true ->
  forall (acc : string) (dp dg : Z),
    inf.scanLoop s acc dp dg
    = ((acc ++ s)%string, dp,
       match s with
       | EmptyString => dg
       | String _ _ => if dg =? -1 then len acc else dg
       end, "").
Proof.
  induction s as [|c r IH]; intros Ha acc dp dg; simpl.
  - now rewrite append_empty_r.
  - simpl in Ha. apply andb_true_iff in Ha. destruct Ha as [Hc Hr].
    destruct (isDigit_not_mark c Hc) as (Hm & Hp & Hd).
    rewrite Hm, Hp, Hd, Hc. simpl orb. cbv iota.
    rewrite (IH Hr), append_snoc. f_equal. f_equal.
    pose proof (len_nonneg acc) as Hl.
    destruct r as [|c' r']; [reflexivity|].
    destruct (dg =? -1) eqn:Hdg.
    + destruct (len acc =? -1) eqn:E; [apply Z.eqb_eq in E; lia | reflexivity].
    + rewrite Hdg. reflexivity.
Qed.

Lemma SetString_digits (s : string) (v : Z) :
  startsNonZero s = true -> allDigits s = true ->
  strconv.digitsValue s 0 = Some v ->
  inf.SetString s = Some (inf.NewDec v 0).
Proof.
  intros Hs Ha Hv. unfold inf.SetString, inf.scan.
  rewrite (scanLoop_allDigits s Ha).
  destruct s as [|c r]; [discriminate|].
  simpl in Hs. apply andb_true_iff in Hs. destruct Hs as [Hc _].
  destruct (isDigit_not_mark c Hc) as (Hm & Hp & _).
  change (("" ++ String c r)%string) with (String c r).
  change (-1 =? -1) with true. change (len "" =? -1) with false.
  change (0 <=? -1) with false. cbv iota.
  unfold inf.bigSetString. rewrite Hm, Hp. simpl orb. cbv iota.
  rewrite Hv. reflexivity.
Qed.

Lemma SetString_minus_digits (s : string) (v : Z) :
  startsNonZero s = true -> allDigits s = true ->
  strconv.digitsValue s 0 = Some v ->
  inf.SetString (String "-" s) = Some (inf.NewDec (- v) 0).
Proof.
  intros Hs Ha Hv. unfold inf.SetString, inf.scan.
  cbn [inf.scanLoop]. change (Ascii.eqb "-" "+" || Ascii.eqb "-" "-") with true.
  change ((0 <? len "") || (0 <=? -1)) with false. cbv iota.
  rewrite (scanLoop_allDigits s Ha).
  destruct s as [|c r]; [discriminate|].
  change (("" ++ "-") ++ String c r)%string with (String "-" (String c r)).
  change (-1 =? -1) with true. change (len ("" ++ "-") =? -1) with false.
  change (0 <=? -1) with false. cbv iota.
  unfold inf.bigSetString. change (Ascii.eqb "-" "-") with true.
  rewrite orb_true_r. cbv iota. rewrite Hv. reflexivity.
Qed.

(** ** [ParseQuantity] on the output of [Itoa] *)

Lemma wrap64_in_range (x : Z) : minInt64 <= x <= maxInt64 -> wrap64 x = x.
Proof.
  unfold wrap64, wrap, minInt64, maxInt64. intros H.
  rewrite Z.mod_small; lia.
Qed.

Lemma Unscaled_nonzero (a : inf.Dec) :
  inf.unscaled a <> 0 ->
  negb (fst (inf.Unscaled a) =? 0) || negb (snd (inf.Unscaled a)) = true.
Proof.
  intros H. unfold inf.Unscaled. cbn [fst snd].
  destruct (wrap64 (inf.unscaled a) =? inf.unscaled a) eqn:E.
  - apply Z.eqb_eq in E. rewrite E. apply Z.eqb_neq in H. rewrite H. reflexivity.
  - apply orb_true_r.
Qed.

Lemma magnitude_integer (v : Z) :
  0 < v ->
  resource.magnitude resource.DecimalSI (inf.NewDec v 0)
  = inf.NewDec (v * 10 ^ 9) 9.
Proof.
  intros Hv. unfold resource.magnitude, inf.Sign. cbn [inf.unscaled].
  replace (Z.sgn v =? -1) with false by (symmetry; apply Z.eqb_neq; lia).
  change (String.eqb resource.DecimalSI resource.BinarySI) with false.
  cbn [andb]. change (- resource.Nano) with 9.
  assert (Hnz : inf.unscaled (inf.NewDec v 0) <> 0) by (simpl; lia).
  apply Unscaled_nonzero in Hnz.
  destruct (inf.Unscaled (inf.NewDec v 0)) as [v0 ok].
  cbn [fst snd] in Hnz. rewrite Hnz. reflexivity.
Qed.

Lemma adjustAmount_integer (positive : bool) (v : Z) :
  0 < v ->
  resource.adjustAmount 10 0 resource.DecimalSI
    (inf.NewDec (if positive then v else - v) 0)
  = inf.NewDec ((if positive then v else - v) * 10 ^ 9) 9.
Proof.
  intros Hv. unfold resource.adjustAmount, resource.foldSuffix.
  change (10 =? 10) with true. cbv iota zeta.
  change (wrap32 (inf.scale (inf.NewDec (if positive then v else - v) 0)
                  + wrap32 (- 0))) with 0.
  unfold inf.SetScale. cbn [inf.unscaled inf.scale].
  destruct positive.
  - unfold inf.Sign at 1. cbn [inf.unscaled].
    replace (Z.sgn v =? -1) with false by (symmetry; apply Z.eqb_neq; lia).
    apply magnitude_integer, Hv.
  - unfold inf.Sign at 1. cbn [inf.unscaled].
    replace (Z.sgn (- v) =? -1) with true by (symmetry; apply Z.eqb_eq; lia).
    unfold resource.magnitude at 1, inf.Sign. cbn [inf.unscaled].
    replace (Z.sgn (- v) =? -1) with true by (symmetry; apply Z.eqb_eq; lia).
    assert (Hneg : inf.Neg (inf.NewDec (- v) 0) = inf.NewDec v 0)
      by (unfold inf.Neg; simpl; f_equal; lia).
    rewrite Hneg.
    pose proof (magnitude_integer v Hv) as Hm.
    unfold resource.magnitude, inf.Sign in Hm. cbn [inf.unscaled] in Hm.
    replace (Z.sgn v =? -1) with false in Hm by (symmetry; apply Z.eqb_neq; lia).
    rewrite Hm. unfold inf.Neg. cbn [inf.unscaled inf.scale]. f_equal. lia.
Qed.

Lemma adjustFormat_decimal (base exponent : Z) (amount : inf.Dec) :
  resource.adjustFormat base exponent resource.DecimalSI amount
  = resource.DecimalSI.
Proof.
  unfold resource.adjustFormat.
  change (String.eqb resource.DecimalSI resource.BinarySI) with false.
  reflexivity.
Qed.

Lemma ParseInt_digits (s : string) (v : Z) :
  startsNonZero s = true -> strconv.digitsValue s 0 = Some v -> v < 2 ^ 63 ->
  strconv.ParseInt s = inl v.
Proof.
  intros Hs Hv Hlt. unfold strconv.ParseInt.
  destruct s as [|c r]; [discriminate|].
  simpl in Hs. apply andb_true_iff in Hs. destruct Hs as [Hc _].
  destruct (isDigit_not_mark c Hc) as (Hm & Hp & _).
  rewrite Hm, Hp. cbn [orb negb andb]. cbv iota. rewrite Hv.
  replace (2 ^ 63 <=? v) with false by (symmetry; apply Z.leb_gt; lia).
  reflexivity.
Qed.

Lemma int64Multiply_one (v : Z) :
  minInt64 <= v <= maxInt64 -> resource.int64Multiply v 1 = (v, true).
Proof.
  intros H. unfold resource.int64Multiply.
  change (1 =? 1) with true. rewrite !orb_true_r.
  rewrite Z.mul_1_r, wrap64_in_range by exact H. reflexivity.
Qed.

Lemma digits_fit_int64 (s : string) (v : Z) :
  strconv.digitsValue s 0 = Some v -> len s <= 18 -> 0 <= v < 10 ^ 18.
Proof.
  intros Hv Hl. apply digitsValue_bounds in Hv.
  assert (10 ^ len s <= 10 ^ 18)
    by (apply Z.pow_le_mono_r; [lia | exact Hl]).
  lia.
Qed.

Lemma ParseQuantity_integer (str s : string) (positive : bool) (v : Z) :
  (len str =? 0) = false ->
  String.eqb str "0" = false ->
  resource.parseQuantityString str = (positive, str, s, "", "", None) ->
  startsNonZero s = true -> allDigits s = true ->
  strconv.digitsValue s 0 = Some v -> 0 < v ->
  inf.SetString str = Some (inf.NewDec (if positive then v else - v) 0) ->
  resource.ParseQuantity str
  = (integerQuantity (len s) (if positive then v else - v), None).
Proof.
  intros Hlen H0 Hparse Hs Ha Hv Hpos Hset.
  unfold resource.ParseQuantity. rewrite Hlen, H0, Hparse. cbv iota beta.
  change (resource.interpret "") with (10, 0, resource.DecimalSI, true).
  cbv iota beta. change (negb true) with false. cbv iota.
  change (String.eqb resource.DecimalSI resource.DecimalExponent
          || String.eqb resource.DecimalSI resource.DecimalSI) with true.
  cbv iota beta zeta.
  change (len "") with 0. rewrite Z.add_0_r.
  unfold integerQuantity.
  destruct (0 <=? resource.maxInt64Factors - len s) eqn:Hprec.
  - change (wrap32 (0 - 0)) with 0. change (resource.Nano <=? 0) with true.
    cbv iota. rewrite append_empty_r.
    apply Z.leb_le in Hprec. unfold resource.maxInt64Factors in Hprec.
    assert (Hfit : 0 <= v < 10 ^ 18) by (apply (digits_fit_int64 s); [exact Hv | lia]).
    assert (Hr : minInt64 <= v <= maxInt64) by (unfold minInt64, maxInt64; lia).
    rewrite (ParseInt_digits s v Hs Hv) by lia.
    rewrite (int64Multiply_one v Hr).
    unfold resource.NewQuantity. destruct positive; [reflexivity|].
    rewrite wrap64_in_range by (unfold minInt64, maxInt64 in *; lia).
    reflexivity.
  - rewrite Hset, (adjustAmount_integer positive v Hpos), adjustFormat_decimal.
    reflexivity.
Qed.

Lemma startsNonZero_not_zero (s : string) :
  startsNonZero s = true -> (len s =? 0) = false /\ String.eqb s "0" = false.
Proof.
  destruct s as [|c r]; [discriminate|]. simpl. intros H.
  apply andb_true_iff in H. destruct H as [_ H]. apply negb_true_iff in H.
  rewrite H. split; reflexivity.
Qed.

(** [ParseQuantity] reads back what [Itoa] writes, without error. *)
Lemma ParseQuantity_Itoa (n : Z) :
  resource.ParseQuantity (strconv.Itoa n)
  = (match n with
     | 0 => resource.NewQuantity 0 resource.DecimalSI
     | Z.pos p | Z.neg p => integerQuantity (len (digitsOf p)) n
     end, None).
Proof.
  destruct n as [|p|p].
  - reflexivity.
  - rewrite Itoa_pos.
    pose proof (startsNonZero_digitsOf p) as Hs.
    pose proof (allDigits_digitsOf p) as Ha.
    pose proof (digitsValue_digitsOf p) as Hv.
    destruct (startsNonZero_not_zero _ Hs) as [Hl H0].
    apply (ParseQuantity_integer (digitsOf p) (digitsOf p) true (Z.pos p));
      auto using parseQuantityString_digits, SetString_digits; lia.
  - rewrite Itoa_neg.
    pose proof (startsNonZero_digitsOf p) as Hs.
    pose proof (allDigits_digitsOf p) as Ha.
    pose proof (digitsValue_digitsOf p) as Hv.
    change (Z.neg p) with (- Z.pos p).
    apply (ParseQuantity_integer (String "-" (digitsOf p)) (digitsOf p) false (Z.pos p));
      auto using parseQuantityString_minus_digits, SetString_minus_digits; lia.
Qed.

Lemma AsQ_integerQuantity (digits v : Z) :
  Qeq (resource.AsQ (integerQuantity digits v)) (inject_Z v)
  /\ resource.Format_ (integerQuantity digits v) = resource.DecimalSI.
Proof.
  unfold integerQuantity.
  destruct (0 <=? resource.maxInt64Factors - digits); split; try reflexivity.
  - unfold resource.AsQ, resource.NewQuantity. simpl.
    rewrite Z.mul_1_r. reflexivity.
  - unfold resource.AsQ, inf.toQ. cbn [resource.d inf.scale inf.unscaled].
    change (0 <=? 9) with true. cbv iota.
    unfold Qeq, inject_Z. cbn [Qnum Qden]. 
    change (Z.pos (Z.to_pos (10 ^ 9))) with (10 ^ 9). lia.
Qed.

(** ** The stub container manager *)

Lemma GetDevicePluginResourceCapacity_run (w : World) :
  GetDevicePluginResourceCapacity w
  = (({[ "nvidia.com/gpu" := fst (resource.ParseQuantity (strconv.Itoa (GpuNum (receiver w)))) ]},
      {[ "nvidia.com/gpu" := fst (resource.ParseQuantity (strconv.Itoa (GpuNum (receiver w)))) ]},
      []), w).
Proof.
  unfold GetDevicePluginResourceCapacity, bind, load, ret.
  destruct (resource.ParseQuantity (strconv.Itoa (GpuNum (receiver w)))).
  reflexivity.
Qed.

Lemma parsed_gpuNum (n : Z) :
  Qeq (resource.AsQ (fst (resource.ParseQuantity (strconv.Itoa n)))) (inject_Z n)
  /\ resource.Format_ (fst (resource.ParseQuantity (strconv.Itoa n))) = resource.DecimalSI
  /\ snd (resource.ParseQuantity (strconv.Itoa n)) = None.
Proof.
  rewrite ParseQuantity_Itoa. cbn [fst snd].
  destruct n as [|p|p].
  - repeat split; reflexivity.
  - destruct (AsQ_integerQuantity (len (digitsOf p)) (Z.pos p)). auto.
  - destruct (AsQ_integerQuantity (len (digitsOf p)) (Z.neg p)). auto.
Qed.

(** C1: for the manager built by [NewStubContainerManager gpuNum], whatever
    the state of the log, [GetDevicePluginResourceCapacity] returns a
    capacity list and an allocatable list that are equal, each with the
    single entry nvidia.com/gpu whose quantity denotes exactly [gpuNum]
    (in decimal format, the parse error that the method drops being nil),
    and an empty slice of removed resources. *)
Theorem GetDevicePluginResourceCapacity_fabricated
    (gpuNum verbosity : Z) (out : list string) :
  let '(devicesCapacity, devicesAllocatable, removed) :=
    fst (GetDevicePluginResourceCapacity
           (worldOf (NewStubContainerManager gpuNum) verbosity out)) in
  devicesCapacity = devicesAllocatable
  /\ removed = []
  /\ exists q : resource.Quantity,
       devicesCapacity = {[ "nvidia.com/gpu" := q ]}
       /\ q = fst (resource.ParseQuantity (strconv.Itoa gpuNum))
       /\ snd (resource.ParseQuantity (strconv.Itoa gpuNum)) = None
       /\ Qeq (resource.AsQ q) (inject_Z gpuNum)
       /\ resource.Format_ q = resource.DecimalSI.
Proof.
  rewrite GetDevicePluginResourceCapacity_run. cbn [fst receiver worldOf GpuNum NewStubContainerManager].
  destruct (parsed_gpuNum gpuNum) as (Hq & Hf & He).
  split; [reflexivity|]. split; [reflexivity|].
  eexists. repeat split; eauto.
Qed.

(** C2, as stated, fails: built with the negative GPU count -1,
    [NewStubContainerManager] produces a manager and no error. *)
Lemma NewStubContainerManager_accepts_negative :
  -1 < 0
  /\ constructStub (-1)
     = inl {| shouldResetExtendedResourceCapacity := false; GpuNum := -1 |}
  /\ ~ (exists e : error, constructStub (-1) = inr e).
Proof.
  split; [lia|]. split; [reflexivity|].
  intros [e He]. discriminate He.
Qed.

(** C2, amended: [NewStubContainerManager] never fails: for every GPU
    count, negative ones included, it produces the manager that stores the
    count unchanged, and [GetDevicePluginResourceCapacity] of that manager
    reports a quantity denoting that same count. *)
Theorem NewStubContainerManager_total (gpuNum verbosity : Z) (out : list string) :
  constructStub gpuNum
  = inl {| shouldResetExtendedResourceCapacity := false; GpuNum := gpuNum |}
  /\ exists q : resource.Quantity,
       fst (GetDevicePluginResourceCapacity
              (worldOf (NewStubContainerManager gpuNum) verbosity out))
       = ({[ "nvidia.com/gpu" := q ]}, {[ "nvidia.com/gpu" := q ]}, [])
       /\ Qeq (resource.AsQ q) (inject_Z gpuNum).
Proof.
  split; [reflexivity|].
  rewrite GetDevicePluginResourceCapacity_run. cbn [fst receiver worldOf GpuNum NewStubContainerManager].
  eexists. split; [reflexivity|]. apply parsed_gpuNum.
Qed.

(** C8: each of the accessors [GetDevicePluginResourceCapacity],
    [GetCapacity] and [ShouldResetExtendedResourceCapacity] leaves the
    world as it found it, so both fields of the manager ([GpuNum] and
    [shouldResetExtendedResourceCapacity]) are unchanged, and calling it
    twice in a row yields the same result twice. *)
Theorem accessors_read_only (w : World) :
  (snd (GetDevicePluginResourceCapacity w) = w
   /\ preservesFields GetDevicePluginResourceCapacity w
   /\ repeatable GetDevicePluginResourceCapacity w)
  /\ (snd (GetCapacity w) = w
      /\ preservesFields GetCapacity w
      /\ repeatable GetCapacity w)
  /\ (snd (ShouldResetExtendedResourceCapacity w) = w
      /\ preservesFields ShouldResetExtendedResourceCapacity w
      /\ repeatable ShouldResetExtendedResourceCapacity w).
Proof.
  unfold preservesFields, repeatable, bind.
  rewrite !GetDevicePluginResourceCapacity_run.
  cbn [fst snd]. rewrite ?GetDevicePluginResourceCapacity_run.
  repeat split; reflexivity.
Qed.

(** C9: whatever the manager holds, [GetCapacity] returns the resource list
    with exactly one entry, ephemeral-storage with the quantity 0 (binary
    format); no entry for cpu, memory or nvidia.com/gpu appears in it. *)
Theorem GetCapacity_only_ephemeral_storage (w : World) :
  fst (GetCapacity w)
  = {[ "ephemeral-storage" := resource.NewQuantity 0 resource.BinarySI ]}
  /\ size (fst (GetCapacity w)) = 1%nat
  /\ Qeq (resource.AsQ (resource.NewQuantity 0 resource.BinarySI)) 0
  /\ (forall name : string,
        fst (GetCapacity w) !! name
        = if decide (name = "ephemeral-storage")
          then Some (resource.NewQuantity 0 resource.BinarySI) else None)
  /\ fst (GetCapacity w) !! "cpu" = None
  /\ fst (GetCapacity w) !! "memory" = None
  /\ fst (GetCapacity w) !! "nvidia.com/gpu" = None.
Proof.
  unfold GetCapacity, ret, ResourceEphemeralStorage. cbn [fst].
  split; [reflexivity|]. split; [apply map_size_singleton|].
  split; [reflexivity|]. split.
  - intros name. rewrite lookup_singleton. 
    destruct (decide (name = "ephemeral-storage")) as [->|Hne].
    + rewrite decide_True; reflexivity.
    + rewrite decide_False; [reflexivity | congruence].
  - repeat split; apply lookup_singleton_ne; discriminate.
Qed.

Section NeverFails.

Context {Node ActivePodsFunc SourcesReady PodStatusProvider RuntimeService
         Pod Container NodeInfo PodAdmitAttributes
         EnvVar Mount DeviceInfo Annotation : Type}.

(** C10: the stub never fails: for all arguments (nil pointers included)
    and in every world, [Start], [UpdateQOSCgroups] and
    [UpdatePluginResources] return the nil error, and [GetResources]
    returns a pointer to an empty [RunContainerOptions] with the nil
    error. *)
Theorem stub_never_fails
    (node : option Node) (activePods : ActivePodsFunc)
    (sourcesReady : SourcesReady) (podStatusProvider : PodStatusProvider)
    (runtimeService : RuntimeService)
    (pod : option Pod) (container : option Container)
    (nodeInfo : option NodeInfo) (attrs : option PodAdmitAttributes)
    (w : World) :
  fst (Start node activePods sourcesReady podStatusProvider runtimeService w) = None
  /\ fst (UpdateQOSCgroups w) = None
  /\ fst (UpdatePluginResources nodeInfo attrs w) = None
  /\ fst (GetResources (EnvVar := EnvVar) (Mount := Mount)
            (DeviceInfo := DeviceInfo) (Annotation := Annotation)
            pod container w)
     = (Some emptyRunContainerOptions, None).
Proof.
  repeat split.
  unfold Start, bind, klog_V_Infof, ret.
  destruct (2 <=? klogVerbosity w); reflexivity.
Qed.

End NeverFails.

(** ** The admission ledger *)

Import AdmissionLedger.

Lemma used_snoc (dim : Dimension) (alloc : Resources)
    (rs : list AdmissionRecord) (r : AdmissionRecord) :
  used dim {| allocatable := alloc; live := rs ++ [r] |}
  = (used dim {| allocatable := alloc; live := rs |} + requestedOf dim r)%N.
Proof.
  unfold used. cbn [live].
  induction rs as [|x rs IH]; cbn [List.app fold_right]; [lia|].
  rewrite IH. lia.
Qed.

Lemma used_Release_le (dim : Dimension) (id : string) (l : Ledger) :
  (used dim (Release id l) <= used dim l)%N.
Proof.
  unfold used, Release. cbn [live].
  induction (live l) as [|x rs IH]; cbn [List.filter fold_right]; [lia|].
  destruct (negb (String.eqb (workloadID x) id)); cbn [fold_right]; lia.
Qed.

Lemma requestedOf_recordOf (dim : Dimension) (now : N) (req : Request) :
  requestedOf dim (recordOf now req) = amount dim (requestedResources req).
Proof. destruct dim; reflexivity. Qed.

Lemma firstExhausted_None (l : Ledger) (req : Request) :
  firstExhausted l req = None <->
  forall dim : Dimension,
    (used dim l + amount dim (requestedResources req)
     <= amount dim (allocatable l))%N.
Proof.
  unfold firstExhausted, dimensions. cbn [List.find]. split.
  - intros H dim.
    destruct (hasHeadroom l req CPU) eqn:Hc; [|discriminate].
    destruct (hasHeadroom l req Memory) eqn:Hm; [|discriminate].
    destruct (hasHeadroom l req GPU) eqn:Hg; [|discriminate].
    destruct dim; apply N.leb_le; assumption.
  - intros H.
    assert (Hall : forall dim, hasHeadroom l req dim = true)
      by (intros dim; apply N.leb_le, H).
    rewrite !Hall. reflexivity.
Qed.

(** A rejection names a dimension without headroom, and every dimension
    checked before it has headroom. *)
Lemma firstExhausted_Some (l : Ledger) (req : Request) (dim : Dimension) :
  firstExhausted l req = Some dim ->
  hasHeadroom l req dim = false
  /\ exists before after : list Dimension,
       dimensions = (before ++ dim :: after)%list
       /\ forall d, In d before -> hasHeadroom l req d = true.
Proof.
  unfold firstExhausted, dimensions. cbn [List.find].
  destruct (hasHeadroom l req CPU) eqn:Hc; cbn [negb].
  - destruct (hasHeadroom l req Memory) eqn:Hm; cbn [negb].
    + destruct (hasHeadroom l req GPU) eqn:Hg; cbn [negb]; [discriminate|].
      intros [= <-]. split; [assumption|].
      exists [CPU; Memory], []. split; [reflexivity|].
      intros d [<-|[<-|[]]]; assumption.
    + intros [= <-]. split; [assumption|].
      exists [CPU], [GPU]. split; [reflexivity|].
      intros d [<-|[]]; assumption.
  - intros [= <-]. split; [assumption|].
    exists [], [Memory; GPU]. split; [reflexivity|]. intros d [].
Qed.

Lemma TryAdmit_preserves (now : N) (req : Request) (l : Ledger) :
  withinAllocatable l -> withinAllocatable (snd (TryAdmit now req l)).
Proof.
  intros Hl. unfold TryAdmit.
  destruct (firstExhausted l req) eqn:Hf; cbn [snd]; [assumption|].
  intros dim. rewrite used_snoc, requestedOf_recordOf. cbn [allocatable].
  pose proof (proj1 (firstExhausted_None l req) Hf dim) as H.
  destruct l; exact H.
Qed.

Lemma Release_preserves (id : string) (l : Ledger) :
  withinAllocatable l -> withinAllocatable (Release id l).
Proof.
  intros Hl dim. pose proof (used_Release_le dim id l). specialize (Hl dim).
  cbn [Release allocatable]. lia.
Qed.

Lemma states_within (ops : list Op) (l : Ledger) :
  withinAllocatable l -> Forall withinAllocatable (states l ops).
Proof.
  revert l. induction ops as [|op ops IH]; intros l Hl; cbn [states].
  - constructor; [assumption | constructor].
  - constructor; [assumption|]. apply IH.
    destruct op; cbn [step]; auto using TryAdmit_preserves, Release_preserves.
Qed.

Lemma New_within (alloc : Resources) : withinAllocatable (New alloc).
Proof. intros dim. unfold used, New. cbn [live fold_right]. lia. Qed.

(** C3: over every sequence of admissions and releases applied to the
    ledger of a new agent, each state the ledger goes through keeps, in
    every dimension (CPU, memory, GPU), the sum of the live requests at or
    below the allocatable amount; and a request that would exceed the
    allocatable amount in some dimension is rejected and leaves the ledger
    as it was. *)
Theorem ledger_within_allocatable (alloc : Resources) (ops : list Op) :
  Forall withinAllocatable (states (New alloc) ops)
  /\ forall (l : Ledger) (now : N) (req : Request) (dim : Dimension),
       (amount dim (allocatable l)
        < used dim l + amount dim (requestedResources req))%N ->
       exists reason : Dimension, TryAdmit now req l = (Rejected reason, l).
Proof.
  split.
  - apply states_within, New_within.
  - intros l now req dim Hover. unfold TryAdmit.
    destruct (firstExhausted l req) as [reason|] eqn:Hf.
    + exists reason. reflexivity.
    + pose proof (proj1 (firstExhausted_None l req) Hf dim). lia.
Qed.

(** An oversized request on a new agent with 1000 millicores: the ledger
    states stay within the allocatable amounts and the request is
    rejected. *)
Lemma ledger_within_allocatable_witness :
  let alloc := {| cpuMillis := 1000; memoryBytes := 4 * 2 ^ 30; gpuCount := 0 |} in
  let big := {| requestID := "w";
                requestedResources :=
                  {| cpuMillis := 1500; memoryBytes := 0; gpuCount := 0 |} |} in
  Forall withinAllocatable (states (New alloc) [SubmitPlacement 0 big; ReleasePlacement "w"])
  /\ exists reason : Dimension,
       TryAdmit 0 big (New alloc) = (Rejected reason, New alloc).
Proof.
  cbv zeta. split.
  - refine (proj1 (ledger_within_allocatable _ _)).
  - refine (proj2 (ledger_within_allocatable
                     {| cpuMillis := 1000; memoryBytes := 4 * 2 ^ 30; gpuCount := 0 |} [])
                  _ 0%N _ CPU _).
    reflexivity.
Defined.

(** C4: [TryAdmit] admits a request exactly when every dimension has
    headroom for it, and then appends its record; when it rejects, the
    ledger is unchanged and the reason is the first dimension, in the order
    CPU, memory, GPU, without headroom.  With 1000 millicores and 4Gi
    allocatable, a request of 500 millicores and 1Gi is admitted and a
    following one of 600 millicores and 1Gi is rejected for CPU. *)
Theorem TryAdmit_decides (now now' : N) (id id' : string)
    (req : Request) (l : Ledger) :
  (fst (TryAdmit now req l) = Accepted <->
   forall dim : Dimension,
     (used dim l + amount dim (requestedResources req)
      <= amount dim (allocatable l))%N)
  /\ match TryAdmit now req l with
     | (Accepted, l') =>
         l' = {| allocatable := allocatable l;
                 live := live l ++ [recordOf now req] |}
     | (Rejected reason, l') =>
         l' = l
         /\ (amount reason (allocatable l)
             < used reason l + amount reason (requestedResources req))%N
         /\ exists before after : list Dimension,
              [CPU; Memory; GPU] = (before ++ reason :: after)%list
              /\ forall d, In d before ->
                   (used d l + amount d (requestedResources req)
                    <= amount d (allocatable l))%N
     end
  /\ let agent := New {| cpuMillis := 1000; memoryBytes := 4 * 2 ^ 30; gpuCount := 0 |} in
     let first := {| requestID := id;
                     requestedResources :=
                       {| cpuMillis := 500; memoryBytes := 2 ^ 30; gpuCount := 0 |} |} in
     let second := {| requestID := id';
                      requestedResources :=
                        {| cpuMillis := 600; memoryBytes := 2 ^ 30; gpuCount := 0 |} |} in
     fst (TryAdmit now first agent) = Accepted
     /\ TryAdmit now' second (snd (TryAdmit now first agent))
        = (Rejected CPU, snd (TryAdmit now first agent)).
Proof.
  split; [|split].
  - unfold TryAdmit. rewrite <- firstExhausted_None.
    destruct (firstExhausted l req); cbn [fst]; split; intros H;
      try reflexivity; discriminate H.
  - unfold TryAdmit.
    destruct (firstExhausted l req) as [reason|] eqn:Hf; [|reflexivity].
    destruct (firstExhausted_Some l req reason Hf) as (Hno & before & after & Hd & Hb).
    split; [reflexivity|]. split.
    + apply N.leb_gt. exact Hno.
    + exists before, after. split; [exact Hd|].
      intros d Hin. apply N.leb_le, Hb, Hin.
  - cbv zeta. split; reflexivity.
Qed.

(** C5: [Release] is idempotent: releasing a workload a second time leaves
    the ledger as the first release left it; and releasing a workload that
    has no live record leaves the ledger as it is ([Release] has no error
    result). *)
Theorem Release_idempotent (id : string) (l : Ledger) :
  Release id (Release id l) = Release id l
  /\ ((forall r : AdmissionRecord, In r (live l) -> workloadID r <> id) ->
      Release id l = l).
Proof.
  split.
  - unfold Release. cbn [live allocatable]. f_equal.
    induction (live l) as [|x rs IH]; cbn [List.filter]; [reflexivity|].
    destruct (negb (String.eqb (workloadID x) id)) eqn:Hx; cbn [List.filter].
    + rewrite Hx, IH. reflexivity.
    + exact IH.
  - intros Hfresh. destruct l as [alloc rs]. unfold Release. cbn [live allocatable] in *.
    f_equal. induction rs as [|x rs IH]; cbn [List.filter]; [reflexivity|].
    assert (Hx : String.eqb (workloadID x) id = false)
      by (apply String.eqb_neq, Hfresh; left; reflexivity).
    rewrite Hx. cbn [negb]. f_equal. apply IH.
    intros r Hr. apply Hfresh. right. exact Hr.
Qed.

(** A release of an unknown workload, and a repeated release, on a ledger
    with one live record. *)
Lemma Release_idempotent_witness :
  let l := {| allocatable := {| cpuMillis := 1000; memoryBytes := 4 * 2 ^ 30; gpuCount := 0 |};
              live := [ {| workloadID := "a"; requestedCPU := 500;
                           requestedMemory := 2 ^ 30; requestedGPU := 0;
                           admittedAt := 0 |} ] |} in
  Release "b" l = l /\ Release "a" (Release "a" l) = Release "a" l.
Proof.
  cbv zeta. split.
  - refine (proj2 (Release_idempotent "b" _) _).
    intros r [<-|[]]. discriminate.
  - refine (proj1 (Release_idempotent "a" _)).
Defined.

(** ** Further properties of the stub container manager *)

Section Sequences.

Context {Node ActivePodsFunc SourcesReady PodStatusProvider RuntimeService
         Pod Container NodeInfo PodAdmitAttributes
         EnvVar Mount DeviceInfo Annotation
         PluginHandler ContainerDevices : Type}.

Abbreviation call :=
  (@Call Node ActivePodsFunc SourcesReady PodStatusProvider RuntimeService
         Pod Container NodeInfo PodAdmitAttributes).

Abbreviation run_call :=
  (@perform Node ActivePodsFunc SourcesReady PodStatusProvider RuntimeService
            Pod Container NodeInfo PodAdmitAttributes
            EnvVar Mount DeviceInfo Annotation PluginHandler ContainerDevices).

Abbreviation run_calls :=
  (@performAll Node ActivePodsFunc SourcesReady PodStatusProvider RuntimeService
               Pod Container NodeInfo PodAdmitAttributes
               EnvVar Mount DeviceInfo Annotation PluginHandler ContainerDevices).

Lemma perform_effect (c : call) (w : World) :
  receiver (snd (run_call c w)) = receiver w
  /\ klogVerbosity (snd (run_call c w)) = klogVerbosity w
  /\ klogOutput (snd (run_call c w))
     = (klogOutput w
        ++ if isStart c && (2 <=? klogVerbosity w)
           then ["Starting stub container manager"] else [])%list.
Proof.
  destruct c; unfold perform, discard, bind;
    rewrite ?GetDevicePluginResourceCapacity_run;
    cbn [isStart andb]; try (cbn; rewrite app_nil_r; auto).
  unfold Start, bind, klog_V_Infof, ret.
  destruct (2 <=? klogVerbosity w); cbn; rewrite ?app_nil_r; auto.
Qed.

(** X1: whatever sequence of the embedded methods is called on a manager,
    its two fields and the log verbosity stay as they were, and the log
    grows by exactly one line per [Start] call when the verbosity is at
    least 2 and not at all otherwise; so the device capacity and the reset
    flag read after the sequence are those read before it. *)
Theorem calls_leave_manager_unchanged (cs : list call) (w : World) :
  receiver (snd (run_calls cs w)) = receiver w
  /\ klogVerbosity (snd (run_calls cs w)) = klogVerbosity w
  /\ klogOutput (snd (run_calls cs w))
     = (klogOutput w
        ++ repeat "Starting stub container manager"
             (if 2 <=? klogVerbosity w then starts cs else 0%nat))%list
  /\ fst (GetDevicePluginResourceCapacity (snd (run_calls cs w)))
     = fst (GetDevicePluginResourceCapacity w)
  /\ fst (ShouldResetExtendedResourceCapacity (snd (run_calls cs w)))
     = fst (ShouldResetExtendedResourceCapacity w).
Proof.
  assert (H : receiver (snd (run_calls cs w)) = receiver w
              /\ klogVerbosity (snd (run_calls cs w)) = klogVerbosity w
              /\ klogOutput (snd (run_calls cs w))
                 = (klogOutput w
                    ++ repeat "Starting stub container manager"
                         (if 2 <=? klogVerbosity w then starts cs else 0%nat))%list).
  { revert w. induction cs as [|c cs IH]; intros w.
    - cbn. destruct (2 <=? klogVerbosity w); cbn; rewrite app_nil_r; auto.
    - cbn [performAll]. unfold bind.
      destruct (run_call c w) as [u w1] eqn:Hc.
      destruct (perform_effect c w) as (Hr & Hv & Ho). rewrite Hc in Hr, Hv, Ho.
      cbn [snd] in Hr, Hv, Ho.
      destruct (IH w1) as (Hr' & Hv' & Ho').
      rewrite Hr', Hv', Ho', Hr, Hv, Ho. split; [reflexivity|]. split; [reflexivity|].
      rewrite <- app_assoc. f_equal. unfold starts. cbn [List.filter].
      destruct (isStart c); destruct (2 <=? klogVerbosity w); reflexivity. }
  destruct H as (Hr & Hv & Ho).
  split; [exact Hr|]. split; [exact Hv|]. split; [exact Ho|].
  rewrite !GetDevicePluginResourceCapacity_run.
  unfold ShouldResetExtendedResourceCapacity, load. cbn [fst].
  rewrite Hr. split; reflexivity.
Qed.

End Sequences.

Lemma digitVal_nonzero (c : ascii) :
  strconv.isDigit c = true -> Ascii.eqb c "0" = false -> 1 <= strconv.digitVal c.
Proof.
  destruct c as [[] [] [] [] [] [] [] []]; simpl; intros H H0;
    try discriminate H; try discriminate H0; vm_compute; discriminate.
Qed.

(** A number written with [k] digits, the first one not 0, is at least
    [10 ^ (k - 1)]. *)
Lemma digitsValue_lower (s : string) (v : Z) :
  startsNonZero s = true -> strconv.digitsValue s 0 = Some v ->
  10 ^ (len s - 1) <= v.
Proof.
  destruct s as [|c r]; [discriminate|]. cbn [startsNonZero].
  intros Hs Hv. apply andb_true_iff in Hs. destruct Hs as [Hc H0].
  apply negb_true_iff in H0. cbn [strconv.digitsValue] in Hv. rewrite Hc in Hv.
  apply digitsValue_bounds in Hv.
  pose proof (digitVal_nonzero c Hc H0) as H1.
  replace (len (String c r) - 1) with (len r)
    by (unfold len; simpl String.length; lia).
  assert (0 < 10 ^ len r) by (apply Z.pow_pos_nonneg; [lia | apply len_nonneg]).
  nia.
Qed.

Lemma digitsOf_short (p : positive) :
  Z.pos p < 10 ^ 18 -> len (digitsOf p) <= 18.
Proof.
  intros Hp.
  pose proof (digitsValue_lower _ _ (startsNonZero_digitsOf p) (digitsValue_digitsOf p)) as Hl.
  destruct (Z_le_gt_dec (len (digitsOf p)) 18) as [Hle|Hgt]; [exact Hle|].
  assert (10 ^ 18 <= 10 ^ (len (digitsOf p) - 1))
    by (apply Z.pow_le_mono_r; lia).
  lia.
Qed.

Lemma ParseQuantity_Itoa_small (n : Z) :
  - 10 ^ 18 < n < 10 ^ 18 ->
  resource.ParseQuantity (strconv.Itoa n)
  = (resource.NewQuantity n resource.DecimalSI, None).
Proof.
  intros Hn. rewrite ParseQuantity_Itoa.
  destruct n as [|p|p]; [reflexivity| |]; unfold integerQuantity;
    (replace (0 <=? resource.maxInt64Factors - len (digitsOf p)) with true;
     [reflexivity|]);
    symmetry; apply Z.leb_le; unfold resource.maxInt64Factors;
    assert (len (digitsOf p) <= 18) by (apply digitsOf_short; lia); lia.
Qed.

(** X2: when the GPU count of the manager, negative or not, has at most 18
    decimal digits, both device lists hold, under nvidia.com/gpu, exactly the quantity
    [resource.NewQuantity] builds for that count in decimal format: an
    [int64] amount of scale 0 with no [inf.Dec] allocated. *)
Theorem GetDevicePluginResourceCapacity_int64_amount (w : World) :
  - 10 ^ 18 < GpuNum (receiver w) < 10 ^ 18 ->
  fst (GetDevicePluginResourceCapacity w)
  = ({[ "nvidia.com/gpu" :=
          resource.NewQuantity (GpuNum (receiver w)) resource.DecimalSI ]},
     {[ "nvidia.com/gpu" :=
          resource.NewQuantity (GpuNum (receiver w)) resource.DecimalSI ]},
     []).
Proof.
  intros Hn. rewrite GetDevicePluginResourceCapacity_run.
  rewrite (ParseQuantity_Itoa_small _ Hn). reflexivity.
Qed.

(** The GPU count 20 of the README's example invocation. *)
Lemma GetDevicePluginResourceCapacity_int64_amount_witness :
  - 10 ^ 18 < 20 < 10 ^ 18
  /\ fst (GetDevicePluginResourceCapacity
            (worldOf (NewStubContainerManager 20) 0 []))
     = ({[ "nvidia.com/gpu" := resource.NewQuantity 20 resource.DecimalSI ]},
        {[ "nvidia.com/gpu" := resource.NewQuantity 20 resource.DecimalSI ]},
        []).
Proof.
  split; [lia|].
  apply (GetDevicePluginResourceCapacity_int64_amount
           (worldOf (NewStubContainerManager 20) 0 [])).
  cbn. lia.
Defined.

(** X3: the reported device capacity determines the GPU count and nothing
    else of the world: two worlds yield the same result of
    [GetDevicePluginResourceCapacity] exactly when their managers hold the
    same [GpuNum]. *)
Theorem GetDevicePluginResourceCapacity_determines_GpuNum (w1 w2 : World) :
  fst (GetDevicePluginResourceCapacity w1) = fst (GetDevicePluginResourceCapacity w2)
  <-> GpuNum (receiver w1) = GpuNum (receiver w2).
Proof.
  rewrite !GetDevicePluginResourceCapacity_run. cbn [fst]. split.
  - intros H. apply (f_equal (fun t => fst (fst t))) in H. cbn [fst] in H.
    assert (Hq : fst (resource.ParseQuantity (strconv.Itoa (GpuNum (receiver w1))))
                 = fst (resource.ParseQuantity (strconv.Itoa (GpuNum (receiver w2))))).
    { apply (f_equal (fun m : ResourceList => m !! "nvidia.com/gpu")) in H.
      rewrite !lookup_singleton_eq in H. congruence. }
    destruct (parsed_gpuNum (GpuNum (receiver w1))) as (H1 & _).
    destruct (parsed_gpuNum (GpuNum (receiver w2))) as (H2 & _).
    rewrite Hq in H1. rewrite H1 in H2.
    unfold Qeq, inject_Z in H2. cbn [Qnum Qden] in H2. lia.
  - intros ->. reflexivity.
Qed.

(** X4: a manager built by [NewStubContainerManagerWithExtendedResource]
    answers [ShouldResetExtendedResourceCapacity] with the flag it was
    given, and still lists nvidia.com/gpu in both device lists, with the
    quantity zero. *)
Theorem WithExtendedResource_flag_and_zero_gpu
    (shouldReset : bool) (verbosity : Z) (out : list string) :
  let w := worldOf (NewStubContainerManagerWithExtendedResource shouldReset)
                   verbosity out in
  fst (ShouldResetExtendedResourceCapacity w) = shouldReset
  /\ fst (GetDevicePluginResourceCapacity w)
     = ({[ "nvidia.com/gpu" := resource.NewQuantity 0 resource.DecimalSI ]},
        {[ "nvidia.com/gpu" := resource.NewQuantity 0 resource.DecimalSI ]},
        [])
  /\ is_Some (fst (fst (fst (GetDevicePluginResourceCapacity w))) !! "nvidia.com/gpu").
Proof.
  cbv zeta. rewrite !GetDevicePluginResourceCapacity_run.
  cbn [fst receiver worldOf GpuNum NewStubContainerManagerWithExtendedResource].
  change (resource.ParseQuantity (strconv.Itoa 0))
    with (resource.NewQuantity 0 resource.DecimalSI, @None resource.Error).
  cbn [fst]. split; [reflexivity|]. split; [reflexivity|].
  rewrite lookup_singleton_eq. eauto.
Qed.

(** X5: in every world, the resource names that occur in the lists returned
    by [SystemCgroupsLimit], [GetCapacity] and
    [GetDevicePluginResourceCapacity] are exactly ephemeral-storage and
    nvidia.com/gpu: the stub reports neither cpu nor memory, and the node
    capacity and the device capacity have no name in common. *)
Theorem reportedNames_exact (w : World) :
  reportedNames w = {[ "ephemeral-storage"; "nvidia.com/gpu" ]}
  /\ ("cpu" ∉ reportedNames w)
  /\ ("memory" ∉ reportedNames w)
  /\ dom (fst (GetCapacity w))
     ## dom (fst (fst (fst (GetDevicePluginResourceCapacity w)))).
Proof.
  assert (Hn : reportedNames w = {[ "ephemeral-storage"; "nvidia.com/gpu" ]}).
  { unfold reportedNames. rewrite GetDevicePluginResourceCapacity_run.
    unfold SystemCgroupsLimit, GetCapacity, ret, ResourceEphemeralStorage.
    cbn [fst]. rewrite dom_empty_L, !dom_singleton_L. set_solver. }
  split; [exact Hn|]. rewrite Hn.
  split; [|split].
  - apply not_elem_of_union. split; apply not_elem_of_singleton; discriminate.
  - apply not_elem_of_union. split; apply not_elem_of_singleton; discriminate.
  - rewrite GetDevicePluginResourceCapacity_run.
    unfold GetCapacity, ret, ResourceEphemeralStorage. cbn [fst].
    rewrite !dom_singleton_L. apply disjoint_singleton_l, not_elem_of_singleton.
    discriminate.
Qed.

(** ** The heartbeat loop *)








(** A renewal that takes longer than the period starts the next attempt
    late: the hypothesis on the durations cannot be dropped. *)
Example heartbeat_overrun :
  HeartbeatLoop.attemptStarts
    {| HeartbeatLoop.period := 10; HeartbeatLoop.backoffBase := 1;
       HeartbeatLoop.backoffMax := 8 |}
    (HeartbeatLoop.initial 0)
    [ {| HeartbeatLoop.duration := 15; HeartbeatLoop.renewed := true;
         HeartbeatLoop.jitter := 0 |} ]
  = [0; 15]%N.
Proof. reflexivity. Qed.

(** ** The status sync loop *)





(** The scenario of the design document: checks every 5 seconds, a report
    at least every 60, nothing changing for 100 seconds: two publishes, at
    0 and at 60. *)
Example status_quiet_scenario :
  StatusSyncLoop.successTimes
    (StatusSyncLoop.run 60 StatusSyncLoop.initial
       (StatusSyncLoop.quietTicks
          [0; 5; 10; 15; 20; 25; 30; 35; 40; 45; 50; 55; 60; 65; 70; 75; 80;
           85; 90; 95; 100]%N []))
  = [0; 60]%N.
Proof. vm_compute. reflexivity. Qed.



